(** * hyperlinked: OSC8 terminal hyperlinks to the call site

    A shallow embedding of [src/python/src/hyperlinked/__init__.py] and the
    properties its specification states about it.

    Conventions of the embedding.
    - A Python [str] is a [string]; one [ascii] stands for one code point
      (below 256), so [String.length] is Python's [len].
    - A Python [int] is a [Z]; [str_of_int] is its decimal rendering, as an
      f-string produces it.
    - [pathlib.Path] is an interface ([pathlib]): the library is consumed, not
      defined, by the source.  [posix] is a lexical model of it on a file
      system without symbolic links, used to evaluate the code on concrete
      inputs.
    - Output is a log of [event]s carried by the interpreter state [world];
      printing functions live in the monad [M], whose results are either a
      returned value or a raised exception.
    - [sys.tracebacklimit] is left at its default (unset). *)

From Stdlib Require Import ZArith Strings.String Strings.Ascii.
From Stdlib Require Import Numbers.DecimalString List Lia.
From stdpp Require Import gmap strings list.

Local Open Scope Z_scope.

#[local] Arguments append !_ _ / : simpl nomatch.

(** ** Strings *)

Module Str.

Definition ESC : ascii := "027"%char.
Definition backslash : ascii := "092"%char.
Definition dquote : ascii := "034"%char.
Definition newline : ascii := "010"%char.

Definition chr (c : ascii) : string := String c EmptyString.

(** [str(n)] for an [int]. *)
Definition str_of_int (n : Z) : string := NilZero.string_of_int (Z.to_int n).

(** [sep.join(items)]. *)
Fixpoint join (sep : string) (items : list string) : string :=
  match items with
  | [] => EmptyString
  | [x] => x
  | x :: rest => x +:+ sep +:+ join sep rest
  end.

(** [str.isspace] on one code point of the Latin-1 range. *)
Definition is_space (c : ascii) : bool :=
  let n := nat_of_ascii c in
  ((9 <=? n)%nat && (n <=? 13)%nat) || ((28 <=? n)%nat && (n <=? 32)%nat)
  || (n =? 133)%nat || (n =? 160)%nat.

Fixpoint lstrip (s : string) : string :=
  match s with
  | EmptyString => EmptyString
  | String c s' => if is_space c then lstrip s' else s
  end.

Fixpoint rev_onto (s acc : string) : string :=
  match s with
  | EmptyString => acc
  | String c s' => rev_onto s' (String c acc)
  end.

Definition reverse (s : string) : string := rev_onto s EmptyString.

Definition rstrip (s : string) : string := reverse (lstrip (reverse s)).

(** [s.strip()]. *)
Definition strip (s : string) : string := rstrip (lstrip s).

(** Truth value of a [str]: non-empty. *)
Definition truthy (s : string) : bool :=
  match s with EmptyString => false | String _ _ => true end.

Fixpoint prefixb (p s : string) : bool :=
  match p, s with
  | EmptyString, _ => true
  | String a p', String b s' => Ascii.eqb a b && prefixb p' s'
  | String _ _, EmptyString => false
  end.

(** [needle in hay]. *)
Fixpoint infixb (needle hay : string) : bool :=
  prefixb needle hay
  || match hay with
     | EmptyString => false
     | String _ hay' => infixb needle hay'
     end.

End Str.

(** ** The hyperlink formatter (source lines 59-63) *)

Definition hyperlink (text url : string) : string :=
  let osc := String Str.ESC (Str.chr "]") in
  let st := String Str.ESC (Str.chr Str.backslash) in
  osc +:+ "8;;" +:+ url +:+ st +:+ text +:+ osc +:+ "8;;" +:+ st.

(** The two escape sequences of the OSC8 grammar, byte by byte. *)
Definition open_link (url : string) : string :=
  String Str.ESC (String "]" (String "8" (String ";" (String ";"
    (url +:+ String Str.ESC (String Str.backslash EmptyString)))))).

Definition close_link : string :=
  String Str.ESC (String "]" (String "8" (String ";" (String ";"
    (String Str.ESC (String Str.backslash EmptyString)))))).

(** ** Paths

    The source consumes [pathlib.Path] through three operations only:
    the constructor [Path(s)], [p.resolve()] and [str(p)]. *)

Record pathlib := {
  Path : Type;
  Path_of : string -> Path;
  resolve : Path -> Path;
  Path_str : Path -> string
}.

(** [str(p)] starts with a slash. *)
Definition is_absolute (s : string) : bool := Str.prefixb "/" s.

(** The contract of [resolve]: the result is an absolute path. *)
Definition resolves_to_absolute (fs : pathlib) : Prop :=
  forall p : Path fs, is_absolute (Path_str fs (resolve fs p)) = true.

(** A lexical model of POSIX paths: no symbolic links, working directory
    [cwd].  A path is its root (none, one slash, or exactly two slashes) and
    its components. *)
Module Posix.

Inductive root := Rel | Slash | SlashSlash.

Record PurePath := { anchor : root; parts : list string }.

(** [s.split("/")]. *)
Fixpoint split (s : string) : list string :=
  match s with
  | EmptyString => [EmptyString]
  | String c s' =>
      if Ascii.eqb c "/" then EmptyString :: split s'
      else match split s' with
           | [] => [Str.chr c]
           | x :: xs => String c x :: xs
           end
  end.

Definition root_of (s : string) : root :=
  match s with
  | String "/" (String "/" (String "/" _)) => Slash
  | String "/" (String "/" _) => SlashSlash
  | String "/" _ => Slash
  | _ => Rel
  end.

Definition keep (c : string) : bool :=
  negb (String.eqb c "") && negb (String.eqb c ".").

Definition parse (s : string) : PurePath :=
  {| anchor := root_of s; parts := List.filter keep (split s) |}.

Definition render (p : PurePath) : string :=
  match anchor p with
  | Rel => match parts p with [] => "." | _ => Str.join "/" (parts p) end
  | Slash => String "/" (Str.join "/" (parts p))
  | SlashSlash => String "/" (String "/" (Str.join "/" (parts p)))
  end.

(** Collapse [..] components; [acc] holds the components kept so far,
    innermost first.  Above the root [..] stays at the root. *)
Fixpoint collapse (acc : list string) (ps : list string) : list string :=
  match ps with
  | [] => List.rev acc
  | p :: ps' =>
      if String.eqb p ".." then collapse (List.tl acc) ps'
      else collapse (p :: acc) ps'
  end.

Definition resolve_in (cwd : string) (p : PurePath) : PurePath :=
  match anchor p with
  | Rel => {| anchor := Slash;
              parts := collapse [] (parts (parse cwd) ++ parts p) |}
  | r => {| anchor := r; parts := collapse [] (parts p) |}
  end.

End Posix.

Definition posix (cwd : string) : pathlib :=
  {| Path := Posix.PurePath;
     Path_of := Posix.parse;
     resolve := Posix.resolve_in cwd;
     Path_str := Posix.render |}.

(** ** Building the link to a location (source lines 66-76)

    The keyword default [scheme=SCHEME] is resolved by the callers, see
    [scheme_or_default] below; here [scheme] is the value the body sees. *)

Section Formatter.

Context (fs : pathlib).

(** The local variable [url] of [hyperlink_to_path] at its last line. *)
Definition hyperlink_to_path_url
    (path : Path fs) (line : option Z) (scheme : string) : string :=
  let url := scheme +:+ "://file/" +:+ Path_str fs (resolve fs path) in
  match line with
  | Some n => url +:+ ":" +:+ Str.str_of_int n
  | None => url
  end.

Definition hyperlink_to_path
    (text : string) (path : Path fs) (line : option Z) (scheme : string)
    : string :=
  hyperlink text (hyperlink_to_path_url path line scheme).

(** [traceback.FrameSummary], as the formatter reads it. *)
Record FrameSummary := {
  filename : string;
  lineno : Z;
  name : string;
  line : option string
}.

(** [if frame.line:] -- neither [None] nor empty. *)
Definition line_present (frame : FrameSummary) : bool :=
  match line frame with
  | Some s => Str.truthy s
  | None => false
  end.

(** Source lines 131-143. *)
Definition _format_hyperlinked_frame
    (frame : FrameSummary) (scheme : string) : string :=
  let location_text :=
    "File " +:+ Str.chr Str.dquote +:+ filename frame +:+ Str.chr Str.dquote
    +:+ ", line " +:+ Str.str_of_int (lineno frame) in
  let hyperlinked_location :=
    hyperlink_to_path location_text (Path_of fs (filename frame))
      (Some (lineno frame)) scheme in
  let line_ :=
    "  " +:+ hyperlinked_location +:+ ", in " +:+ name frame
    +:+ Str.chr Str.newline in
  match line frame with
  | Some src =>
      if Str.truthy src
      then line_ +:+ "    " +:+ Str.strip src +:+ Str.chr Str.newline
      else line_
  | None => line_
  end.

End Formatter.

(** The location text the formatter links. *)
Definition location_text_of (frame : FrameSummary) : string :=
  "File " +:+ Str.chr Str.dquote +:+ filename frame +:+ Str.chr Str.dquote
  +:+ ", line " +:+ Str.str_of_int (lineno frame).

(** The url the formatter links it to. *)
Definition frame_url (fs : pathlib) (frame : FrameSummary) (scheme : string)
    : string :=
  scheme +:+ "://file/"
  +:+ Path_str fs (resolve fs (Path_of fs (filename frame)))
  +:+ ":" +:+ Str.str_of_int (lineno frame).

(** A frame of a script run from its directory, used to evaluate the
    formatter. *)
Definition frame_a : FrameSummary :=
  {| filename := "a.py"; lineno := 1; name := "f";
     line := Some "  x = 1  " |}.

Definition frame_a_no_source : FrameSummary :=
  {| filename := "a.py"; lineno := 1; name := "f"; line := None |}.

(** ** Module initialisation (source line 9) *)

(** [os.environ.get(key, dflt)]. *)
Definition environ_get
    (environ : gmap string string) (key dflt : string) : string :=
  default dflt (environ !! key).

(** What importing the module leaves behind: the global [SCHEME], and the
    value bound to the default of every [scheme] parameter when the [def]
    statements run (Python evaluates a default once, at definition). *)
Record module_state := {
  SCHEME : string;
  scheme_default : string
}.

Definition import_module (environ : gmap string string) : module_state :=
  let s := environ_get environ "HYPERLINKED_SCHEME" "file" in
  {| SCHEME := s; scheme_default := s |}.

Definition scheme_or_default (m : module_state) (scheme : option string)
    : string :=
  default (scheme_default m) scheme.

(** ** Interpreter state and effects *)

Inductive stream := sys_stdout | sys_stderr | file_object (id : nat).

Inductive event :=
| Write (f : stream) (s : string)
| Flush (f : stream).

Inductive exn := RecursionError | IndexError | AttributeError.

Record world := {
  loaded : module_state;
  output : list event
}.

Inductive outcome (A : Type) :=
| Returned (a : A)
| Raised (e : exn).

Arguments Returned {A} a.
Arguments Raised {A} e.

Definition M (A : Type) : Type := world -> outcome A * world.

Definition ret {A} (a : A) : M A := fun w => (Returned a, w).

Definition raise {A} (e : exn) : M A := fun w => (Raised e, w).

Definition bind {A B} (c : M A) (k : A -> M B) : M B :=
  fun w =>
    match c w with
    | (Returned a, w') => k a w'
    | (Raised e, w') => (Raised e, w')
    end.

Notation "x <- c ;; k" := (bind c (fun x => k))
  (at level 100, c at next level, right associativity).
Notation "c ;; k" := (bind c (fun _ => k))
  (at level 100, right associativity).

Definition get_module : M module_state := fun w => (Returned (loaded w), w).

Definition emit (e : event) : M unit :=
  fun w => (Returned tt, {| loaded := loaded w; output := output w ++ [e] |}).

(** The state after the events [es] have been written. *)
Definition log (w : world) (es : list event) : world :=
  {| loaded := loaded w; output := output w ++ es |}.

(** The interpreter state once the module is imported, at process start,
    under the environment [environ]. *)
Definition boot (environ : gmap string string) : world :=
  {| loaded := import_module environ; output := [] |}.

(** A computation that leaves the module's state as it found it. *)
Definition keeps_module {A} (c : M A) : Prop :=
  forall w : world, loaded (snd (c w)) = loaded w.

(** [for x in xs: body(x)]. *)
Fixpoint for_each {A} (xs : list A) (body : A -> M unit) : M unit :=
  match xs with
  | [] => ret tt
  | x :: xs' => body x ;; for_each xs' body
  end.

(** [builtins.print] with [sep], [end], [file], [flush], on objects that are
    already strings: one write of the joined text and the terminator to the
    stream ([sys.stdout] when [file] is [None]), then a flush if asked. *)
Definition builtins_print
    (objects : list string) (sep end_ : string)
    (file : option stream) (flush : bool) : M unit :=
  let f := default sys_stdout file in
  emit (Write f (Str.join sep objects +:+ end_)) ;;
  if flush then emit (Flush f) else ret tt.

(** ** Frames *)

(** [inspect.FrameInfo], the fields the source reads. *)
Record FrameInfo := {
  fi_filename : string;
  fi_lineno : Z;
  fi_function : string
}.

Definition frame_info (fr : FrameSummary) : FrameInfo :=
  {| fi_filename := filename fr; fi_lineno := lineno fr;
     fi_function := name fr |}.

(** A frame object is the chain of its own summary and those of its outer
    frames ([f_back]), innermost first. *)
Definition pyframe := list FrameSummary.

(** [inspect.getouterframes(frame)]. *)
Definition inspect_getouterframes (frame : pyframe) : list FrameInfo :=
  List.map frame_info frame.

(** The Python runtime the library runs on: whether it has frame objects
    ([sys._getframe]), and the path of this module ([__file__]). *)
Record interpreter := {
  currentframe_supported : bool;
  module_file : string
}.

(** Tracebacks: [tb_next] chains, from the frame that caught the exception
    to the frame that raised it. *)
Inductive traceback :=
| tb_end
| tb_entry (tb_frame : FrameSummary) (tb_next : traceback).

Fixpoint walk_tb (tb : traceback) : list FrameSummary :=
  match tb with
  | tb_end => []
  | tb_entry fr tb' => fr :: walk_tb tb'
  end.

(** [traceback.extract_tb(tb)]. *)
Definition traceback_extract_tb (tb : traceback) : list FrameSummary :=
  walk_tb tb.

(** The last [k] elements: [collections.deque(items, maxlen=k)]. *)
Definition last_n {A} (k : nat) (l : list A) : list A :=
  drop (length l - k) l.

(** [StackSummary.extract(frame_gen, limit=limit)]: the first [limit] frames
    walked when [limit >= 0], the last [-limit] ones when it is negative. *)
Definition StackSummary_extract
    (frame_gen : list FrameSummary) (limit : option Z) : list FrameSummary :=
  match limit with
  | None => frame_gen
  | Some l =>
      if 0 <=? l then take (Z.to_nat l) frame_gen
      else last_n (Z.to_nat (- l)) frame_gen
  end.

(** [traceback.extract_stack(f, limit)] once [f] is known: walk outwards
    from [f], cut, and put the oldest frame first. *)
Definition traceback_extract_stack
    (f : pyframe) (limit : option Z) : list FrameSummary :=
  List.rev (StackSummary_extract f limit).

(** ** The three callers and the wrap helper *)

Section Library.

Context (fs : pathlib) (rt : interpreter).

(** Arbitrary Python objects and [str(obj)]. *)
Context {Any : Type} (str : Any -> string).

(** Exception types and values, and
    [traceback.format_exception_only(exc_type, exc_value)]. *)
Context {ExcType ExcValue : Type}
        (format_exception_only : ExcType -> ExcValue -> list string).

(** The summary of a frame of this module, executing line [ln] of the
    function [fn], whose stripped source text is [src]. *)
Definition own_frame (fn : string) (ln : Z) (src : string) : FrameSummary :=
  {| filename := module_file rt; lineno := ln; name := fn;
     line := Some src |}.

(** [inspect.currentframe()] called in a function whose frame is [own] and
    whose callers are [stack], innermost first: [None] on a runtime
    without frame objects. *)
Definition inspect_currentframe
    (own : FrameSummary) (stack : list FrameSummary) : option pyframe :=
  if currentframe_supported rt then Some (own :: stack) else None.

Definition print_frame (ln : Z) (src : string) : FrameSummary :=
  own_frame "print" ln src.

(** Source lines 12-40.  [depth] is the number of Python calls the
    recursion limit still allows; [stack] holds the callers of this
    invocation.  The last line calls the name [print], which in this
    module is this very function, and does not forward [scheme]. *)
Fixpoint print
    (depth : nat) (stack : list FrameSummary)
    (args : list Any) (sep end_ : string) (file : option stream)
    (flush : bool) (scheme : option string) {struct depth} : M unit :=
  match depth with
  | O => raise RecursionError
  | S depth' =>
      m <- get_module ;;
      let scheme := scheme_or_default m scheme in
      let fallback :=
        print depth'
          (print_frame 40
             ("print(" +:+ "*args, sep=sep, end=end, file=file, flush=flush)")
           :: stack)
          args sep end_ file flush None in
      match inspect_currentframe
              (print_frame 26
                 "if len(caller_frame_info := inspect.getouterframes(frame, 2)) >= 2:")
              stack with
      | Some frame =>
          let caller_frame_info := inspect_getouterframes frame in
          if (2 <=? length caller_frame_info)%nat then
            match caller_frame_info !! 1%nat with
            | Some caller_frame =>
                builtins_print
                  [hyperlink_to_path fs
                     (Str.join sep (List.map str args))
                     (resolve fs (Path_of fs (fi_filename caller_frame)))
                     (Some (fi_lineno caller_frame))
                     scheme]
                  " " end_ (Some (default sys_stdout file)) flush
            | None => raise IndexError
            end
          else fallback
      | None => fallback
      end
  end.

(** Source lines 43-56. *)
Definition hyperlinked (stack : list FrameSummary) (text : string)
    : M string :=
  m <- get_module ;;
  match inspect_currentframe
          (own_frame "hyperlinked" 50
             "caller_frame_info = inspect.getouterframes(frame, 2)")
          stack with
  | None => ret text
  | Some frame =>
      let caller_frame_info := inspect_getouterframes frame in
      if (length caller_frame_info <? 2)%nat then ret text
      else
        match caller_frame_info !! 1%nat with
        | Some caller_info =>
            ret (hyperlink_to_path fs text
                   (resolve fs (Path_of fs (fi_filename caller_info)))
                   (Some (fi_lineno caller_info))
                   (scheme_or_default m None))
        | None => raise IndexError
        end
  end.

(** [traceback.extract_stack(limit=...)] with no frame given, called from
    a function whose frame chain is [current]: it starts at the caller's
    frame, found with [sys._getframe]. *)
Definition extract_stack_here
    (current : pyframe) (limit : option Z) : M (list FrameSummary) :=
  if currentframe_supported rt
  then ret (traceback_extract_stack current limit)
  else raise AttributeError.

(** Source lines 79-105.  [lst[:-1]] is [removelast]. *)
Definition print_stack
    (stack : list FrameSummary)
    (f : option pyframe) (limit : option Z) (file : option stream)
    (scheme : option string) : M unit :=
  m <- get_module ;;
  let scheme := scheme_or_default m scheme in
  let file := match file with None => sys_stderr | Some s => s end in
  stack_ <-
    match f with
    | None =>
        full <- extract_stack_here
                  (own_frame "print_stack" 97
                     "stack = traceback.extract_stack(limit=limit + 1 if limit is not None else None)["
                   :: stack)
                  (match limit with
                   | Some l => Some (l + 1)
                   | None => None
                   end) ;;
        ret (List.removelast full)
    | Some f => ret (traceback_extract_stack f limit)
    end ;;
  for_each stack_ (fun frame =>
    let formatted_line := _format_hyperlinked_frame fs frame scheme in
    builtins_print [formatted_line] " " "" (Some file) false).

(** Source lines 108-128. *)
Definition excepthook
    (exc_type : ExcType) (exc_value : ExcValue) (tb : traceback)
    (scheme : option string) : M unit :=
  m <- get_module ;;
  let scheme := scheme_or_default m scheme in
  builtins_print ["Traceback (most recent call last):"] " "
    (Str.chr Str.newline) (Some sys_stderr) false ;;
  let extracted_tb := traceback_extract_tb tb in
  for_each extracted_tb (fun frame =>
    let formatted_line := _format_hyperlinked_frame fs frame scheme in
    builtins_print [formatted_line] " " "" (Some sys_stderr) false) ;;
  let exc_lines := format_exception_only exc_type exc_value in
  for_each exc_lines (fun line_ =>
    builtins_print [line_] " " "" (Some sys_stderr) false).

(** [hyperlink_to_path] called without [scheme]. *)
Definition hyperlink_to_path_default
    (m : module_state) (text : string) (path : Path fs) (line : option Z)
    : string :=
  hyperlink_to_path fs text path line (scheme_or_default m None).

End Library.

(** A call stack used to evaluate the stack dump, innermost frame first. *)
Definition caller_frames : list FrameSummary :=
  [ {| filename := "lib.py"; lineno := 7; name := "inner";
       line := Some "hyperlinked.print_stack(limit=2)" |};
    {| filename := "lib.py"; lineno := 3; name := "middle";
       line := Some "inner()" |};
    {| filename := "main.py"; lineno := 1; name := "<module>";
       line := None |} ].

(** ** The module run as a script (source lines 146-151)

    The three calls of [print] made from the module's top level.  [outer]
    holds the frames outside the module's own ([runpy], an embedding host);
    a string argument is its own [str]. *)

Definition module_frame (rt : interpreter) (ln : Z) (src : string)
    : FrameSummary :=
  own_frame rt "<module>" ln src.

Definition main_program
    (fs : pathlib) (rt : interpreter) (depth : nat)
    (outer : list FrameSummary) : M unit :=
  let q := Str.chr Str.dquote in
  let name_ := "World" in
  print fs rt (fun s : string => s) depth
    (module_frame rt 148
       ("print(" +:+ q +:+ "Hello" +:+ q +:+ ", name, " +:+ q
        +:+ "from hprint!" +:+ q +:+ ")") :: outer)
    ["Hello"; name_; "from hprint!"] " " (Str.chr Str.newline)
    None false None ;;
  print fs rt (fun s : string => s) depth
    (module_frame rt 149
       ("print(" +:+ q +:+ "This is a normal print statement." +:+ q
        +:+ ")") :: outer)
    ["This is a normal print statement."] " " (Str.chr Str.newline)
    None false None ;;
  let x := 10 in
  print fs rt (fun s : string => s) depth
    (module_frame rt 151
       ("print(f" +:+ q +:+ "The value of x is: {x}" +:+ q +:+ ")") :: outer)
    ["The value of x is: " +:+ Str.str_of_int x] " " (Str.chr Str.newline)
    None false None.

(** ** Notions used to state the properties *)

(** The string terminator [ESC \]. *)
Definition string_terminator : string :=
  String Str.ESC (String Str.backslash EmptyString).

(** [c in s] for one character. *)
Fixpoint has_char (c : ascii) (s : string) : bool :=
  match s with
  | EmptyString => false
  | String d s' => Ascii.eqb c d || has_char c s'
  end.

(** The url [print] and [hyperlinked] link a caller to: the caller's file
    goes through [resolve] twice, once in the caller of [hyperlink_to_path]
    and once inside it. *)
Definition caller_url
    (fs : pathlib) (caller : FrameSummary) (scheme : string) : string :=
  scheme +:+ "://file/"
  +:+ Path_str fs (resolve fs (resolve fs (Path_of fs (filename caller))))
  +:+ ":" +:+ Str.str_of_int (lineno caller).

(** The events of one [builtins.print] of [s] to [f]. *)
Definition print_events (f : stream) (s end_ : string) (flush : bool)
    : list event :=
  Write f (s +:+ end_) :: (if flush then [Flush f] else []).

(** * Properties *)

(** ** Facts about strings *)

Module StrFacts.
Import Str.

Lemma app_nil_r (s : string) : s +:+ EmptyString = s.
Proof. induction s as [|c s IH]; cbn; [reflexivity | now rewrite IH]. Qed.

Lemma app_assoc (a b c : string) : (a +:+ b) +:+ c = a +:+ b +:+ c.
Proof. induction a as [|x a IH]; cbn; [reflexivity | now rewrite IH]. Qed.

Lemma app_cons (x : ascii) (a b : string) :
  String x a +:+ b = String x (a +:+ b).
Proof. reflexivity. Qed.

Lemma length_app (a b : string) :
  String.length (a +:+ b) = (String.length a + String.length b)%nat.
Proof. induction a as [|x a IH]; cbn; [reflexivity | now rewrite IH]. Qed.

Lemma prefixb_app (p s : string) : prefixb p (p +:+ s) = true.
Proof.
  induction p as [|c p IH]; cbn; [reflexivity|].
  now rewrite Ascii.eqb_refl, IH.
Qed.

Lemma infixb_of_prefixb (p s : string) :
  prefixb p s = true -> infixb p s = true.
Proof. intros H. destruct s; cbn [infixb]; now rewrite H. Qed.

Lemma infixb_app (pre mid suf : string) :
  infixb mid (pre +:+ mid +:+ suf) = true.
Proof.
  induction pre as [|c pre IH].
  - cbn [append]. apply infixb_of_prefixb, prefixb_app.
  - rewrite app_cons. cbn [infixb]. rewrite IH. apply orb_true_r.
Qed.

Lemma prefixb_spec (p s : string) :
  prefixb p s = true <-> exists t, s = p +:+ t.
Proof.
  revert s; induction p as [|c p IH]; intros s; cbn.
  - split; [intros _; now exists s | reflexivity].
  - destruct s as [|d s].
    + split; [discriminate | intros [t Ht]; discriminate].
    + rewrite andb_true_iff, Ascii.eqb_eq, IH. split.
      * intros [-> [t ->]]. now exists t.
      * intros [t Ht]. injection Ht as -> ->. split; [reflexivity | now exists t].
Qed.

End StrFacts.

(** ** The wire format *)

Lemma hyperlink_unfold (text url : string) :
  hyperlink text url = open_link url +:+ text +:+ close_link.
Proof.
  unfold hyperlink, open_link, close_link, Str.chr. cbn [append].
  rewrite StrFacts.app_assoc. reflexivity.
Qed.

Lemma length_open_link (url : string) :
  String.length (open_link url) = (7 + String.length url)%nat.
Proof. unfold open_link. cbn [String.length]. rewrite StrFacts.length_app. cbn. lia. Qed.

Lemma length_hyperlink (text url : string) :
  String.length (hyperlink text url)
  = (String.length text + 14 + String.length url)%nat.
Proof.
  rewrite hyperlink_unfold, !StrFacts.length_app, length_open_link.
  cbn. lia.
Qed.

Lemma string_of_list_ascii_app (l1 l2 : list ascii) :
  string_of_list_ascii (l1 ++ l2)
  = string_of_list_ascii l1 +:+ string_of_list_ascii l2.
Proof. induction l1 as [|c l1 IH]; cbn; [reflexivity | now rewrite IH]. Qed.

(** C1.  For every text (the empty one included) and every url, [hyperlink]
    returns exactly the bytes ESC ] 8 ; ; url ESC \ text ESC ] 8 ; ; ESC \,
    ESC being the byte 27: the open-link sequence carrying the url, the text
    unchanged, the close-link sequence; with empty text the two sequences
    are adjacent. *)
Theorem hyperlink_wire_format (text url : string) :
  hyperlink text url
  = string_of_list_ascii
      ([Str.ESC; "]"; "8"; ";"; ";"]%char ++ list_ascii_of_string url
       ++ [Str.ESC; Str.backslash]
       ++ list_ascii_of_string text
       ++ [Str.ESC; "]"; "8"; ";"; ";"; Str.ESC; Str.backslash]%char)
  /\ nat_of_ascii Str.ESC = 27%nat
  /\ nat_of_ascii Str.backslash = 92%nat
  /\ hyperlink text url = open_link url +:+ text +:+ close_link
  /\ hyperlink "" url = open_link url +:+ close_link.
Proof.
  repeat split.
  - rewrite !string_of_list_ascii_app, !string_of_list_ascii_of_string.
    rewrite hyperlink_unfold. unfold open_link, close_link. cbn.
    rewrite StrFacts.app_assoc. reflexivity.
  - apply hyperlink_unfold.
  - apply hyperlink_unfold.
Qed.

(** C4, as the specification states it, fails: a one-character text linked
    to the empty url is 15 characters long, not 1 + 8 + 0. *)
Lemma hyperlink_length_8_counterexample :
  String.length (hyperlink "a" "")
  <> (String.length "a" + 8 + String.length "")%nat.
Proof. vm_compute. discriminate. Qed.

(** C4, amended.  [hyperlink text url] is the text, unchanged and in one
    piece, between the open-link sequence for the url and the close-link
    sequence, and its length is len(text) + 14 + len(url): 7 characters
    around the url and 7 for the close sequence. *)
Theorem hyperlink_contains_text_length_14 (text url : string) :
  hyperlink text url = open_link url +:+ text +:+ close_link
  /\ Str.infixb text (hyperlink text url) = true
  /\ String.length (open_link url) = (7 + String.length url)%nat
  /\ String.length close_link = 7%nat
  /\ String.length (hyperlink text url)
     = (String.length text + 14 + String.length url)%nat.
Proof.
  repeat split.
  - apply hyperlink_unfold.
  - rewrite hyperlink_unfold. apply StrFacts.infixb_app.
  - apply length_open_link.
  - apply length_hyperlink.
Qed.

Lemma infixb_hyperlink (text url pre suf : string) :
  Str.infixb text (pre +:+ hyperlink text url +:+ suf) = true.
Proof.
  rewrite hyperlink_unfold.
  replace (pre +:+ (open_link url +:+ text +:+ close_link) +:+ suf)
    with ((pre +:+ open_link url) +:+ text +:+ (close_link +:+ suf))
    by now rewrite !StrFacts.app_assoc.
  apply StrFacts.infixb_app.
Qed.

(** ** Link targets *)

Lemma posix_resolves_to_absolute (cwd : string) :
  resolves_to_absolute (posix cwd).
Proof.
  intros p. cbn. unfold Posix.resolve_in, Posix.render.
  destruct (Posix.anchor p); reflexivity.
Qed.

Lemma prefixb_app_r (p s t : string) :
  Str.prefixb p s = true -> Str.prefixb p (s +:+ t) = true.
Proof.
  rewrite !StrFacts.prefixb_spec. intros [u ->].
  exists (u +:+ t). apply StrFacts.app_assoc.
Qed.

(** C2, as the specification states it, fails: the resolved path keeps its
    leading slash after [file/], so the url of /tmp/a.py, line 42, scheme
    vscode is not the one the specification gives, and it holds a double
    slash after the scheme separator. *)
Lemma hyperlink_to_path_url_single_slash_counterexample :
  let url :=
    hyperlink_to_path_url (posix "/home/user") (Posix.parse "/tmp/a.py")
      (Some 42) "vscode" in
  url <> "vscode://file/tmp/a.py:42"
  /\ url = "vscode://file//tmp/a.py:42"
  /\ Str.infixb "file//" url = true.
Proof. vm_compute. repeat split. discriminate. Qed.

(** C2, amended.  The url is the scheme, then [://file/], then the resolved
    absolute path exactly as the resolver renders it, then a colon and the
    line number when a line is given and nothing otherwise.  As the rendered
    path starts with a slash, the url starts with [<scheme>://file//].  For
    the absolute path /tmp/a.py, line 42 and scheme vscode it is
    [vscode://file//tmp/a.py:42]. *)
Theorem hyperlink_to_path_url_shape
    (fs : pathlib) (Habs : resolves_to_absolute fs)
    (text : string) (path : Path fs) (line : option Z) (scheme : string) :
  hyperlink_to_path fs text path line scheme
  = hyperlink text (hyperlink_to_path_url fs path line scheme)
  /\ hyperlink_to_path_url fs path line scheme
     = scheme +:+ "://file/" +:+ Path_str fs (resolve fs path)
       +:+ match line with
           | Some n => ":" +:+ Str.str_of_int n
           | None => ""
           end
  /\ Str.prefixb (scheme +:+ "://file//")
       (hyperlink_to_path_url fs path line scheme) = true
  /\ (forall cwd,
        hyperlink_to_path_url (posix cwd) (Posix.parse "/tmp/a.py")
          (Some 42) "vscode" = "vscode://file//tmp/a.py:42").
Proof.
  split; [reflexivity|]. split; [|split].
  - unfold hyperlink_to_path_url. destruct line as [n|].
    + now rewrite !StrFacts.app_assoc.
    + now rewrite StrFacts.app_nil_r.
  - pose proof (Habs path) as H. unfold is_absolute in H.
    apply StrFacts.prefixb_spec in H as [t Ht].
    apply StrFacts.prefixb_spec.
    unfold hyperlink_to_path_url. rewrite Ht.
    destruct line as [n|].
    + exists (t +:+ ":" +:+ Str.str_of_int n).
      now rewrite !StrFacts.app_assoc.
    + exists t. now rewrite !StrFacts.app_assoc.
  - intros cwd. reflexivity.
Qed.

Lemma hyperlink_to_path_url_shape_witness :
  resolves_to_absolute (posix "/home/user")
  /\ hyperlink_to_path_url (posix "/home/user") (Posix.parse "src/../a.py")
       None "file"
     = "file://file//home/user/a.py".
Proof.
  split; [apply posix_resolves_to_absolute|].
  destruct (hyperlink_to_path_url_shape (posix "/home/user")
              (posix_resolves_to_absolute "/home/user")
              "x" (Posix.parse "src/../a.py") None "file")
    as (_ & H & _).
  rewrite H. reflexivity.
Defined.

(** ** The frame formatter *)

Lemma frame_url_eq (fs : pathlib) (frame : FrameSummary) (scheme : string) :
  hyperlink_to_path_url fs (Path_of fs (filename frame))
    (Some (lineno frame)) scheme
  = frame_url fs frame scheme.
Proof.
  unfold hyperlink_to_path_url, frame_url. now rewrite !StrFacts.app_assoc.
Qed.

Lemma format_frame_eq (fs : pathlib) (frame : FrameSummary) (scheme : string) :
  _format_hyperlinked_frame fs frame scheme
  = ("  " +:+ hyperlink (location_text_of frame) (frame_url fs frame scheme)
     +:+ ", in " +:+ name frame +:+ Str.chr Str.newline)
    +:+ (if line_present frame
         then "    " +:+ Str.strip (default "" (line frame))
              +:+ Str.chr Str.newline
         else "").
Proof.
  unfold _format_hyperlinked_frame, line_present, hyperlink_to_path.
  rewrite frame_url_eq. fold (location_text_of frame).
  destruct (line frame) as [src|]; cbn [default from_option].
  - destruct (Str.truthy src); [reflexivity|].
    now rewrite StrFacts.app_nil_r.
  - now rewrite StrFacts.app_nil_r.
Qed.

(** C5, as the specification states it, fails: the formatter does not link
    the location string with its [in <function>] part as a whole.  For the
    frame of [f] at line 1 of a.py no link whose text is that whole string
    occurs in the output, whatever the url; the link stops after the line
    number. *)
Lemma format_frame_whole_link_counterexample :
  ~ (exists url pre suf : string,
       _format_hyperlinked_frame (posix "/home/user") frame_a "file"
       = pre +:+ hyperlink
                   ("File " +:+ Str.chr Str.dquote +:+ "a.py"
                    +:+ Str.chr Str.dquote +:+ ", line 1, in f") url
         +:+ suf).
Proof.
  intros (url & pre & suf & H).
  pose proof (infixb_hyperlink
                ("File " +:+ Str.chr Str.dquote +:+ "a.py"
                 +:+ Str.chr Str.dquote +:+ ", line 1, in f")
                url pre suf) as Hin.
  rewrite <- H in Hin.
  vm_compute in Hin. discriminate.
Qed.

(** C5, amended.  The formatter produces two spaces, then the text
    [File <quoted path>, line <n>] hyperlinked to the frame's resolved file
    and line, then, outside the link, [, in <function>] and a newline; a
    second line of four spaces, the stripped source text and a newline
    follows when the source text is neither absent nor empty, and nothing
    follows otherwise, so that the result is the location line alone. *)
Theorem format_frame_shape
    (fs : pathlib) (frame : FrameSummary) (scheme : string) :
  let location_line :=
    "  " +:+ hyperlink (location_text_of frame) (frame_url fs frame scheme)
    +:+ ", in " +:+ name frame +:+ Str.chr Str.newline in
  location_text_of frame
  = "File " +:+ Str.chr Str.dquote +:+ filename frame +:+ Str.chr Str.dquote
    +:+ ", line " +:+ Str.str_of_int (lineno frame)
  /\ _format_hyperlinked_frame fs frame scheme
     = match line frame with
       | Some (String c src) =>
           location_line +:+ "    " +:+ Str.strip (String c src)
           +:+ Str.chr Str.newline
       | Some EmptyString | None => location_line
       end.
Proof.
  cbn zeta. split; [reflexivity|].
  rewrite format_frame_eq. unfold line_present.
  destruct (line frame) as [[|c src]|]; cbn [Str.truthy default from_option].
  - now rewrite StrFacts.app_nil_r.
  - reflexivity.
  - now rewrite StrFacts.app_nil_r.
Qed.

(** C10.  The text shown in a frame line carries the file name as the frame
    records it, the url behind it carries the resolved form of that name;
    so, the resolver returning absolute paths, a frame recorded under a
    relative name shows one path and links to another. *)
Theorem format_frame_shows_recorded_links_resolved
    (fs : pathlib) (frame : FrameSummary) (scheme : string) :
  (exists rest : string,
     _format_hyperlinked_frame fs frame scheme
     = "  "
       +:+ hyperlink
             ("File " +:+ Str.chr Str.dquote +:+ filename frame
              +:+ Str.chr Str.dquote +:+ ", line "
              +:+ Str.str_of_int (lineno frame))
             (scheme +:+ "://file/"
              +:+ Path_str fs (resolve fs (Path_of fs (filename frame)))
              +:+ ":" +:+ Str.str_of_int (lineno frame))
       +:+ rest)
  /\ (resolves_to_absolute fs ->
      is_absolute (filename frame) = false ->
      filename frame
      <> Path_str fs (resolve fs (Path_of fs (filename frame)))).
Proof.
  split.
  - rewrite format_frame_eq. eexists.
    rewrite !StrFacts.app_assoc. reflexivity.
  - intros Habs Hrel Heq.
    specialize (Habs (Path_of fs (filename frame))).
    rewrite <- Heq in Habs. congruence.
Qed.

Lemma format_frame_shows_recorded_links_resolved_witness :
  resolves_to_absolute (posix "/home/user")
  /\ is_absolute (filename frame_a) = false
  /\ filename frame_a = "a.py"
  /\ Path_str (posix "/home/user")
       (resolve (posix "/home/user")
          (Path_of (posix "/home/user") (filename frame_a)))
     = "/home/user/a.py"
  /\ filename frame_a
     <> Path_str (posix "/home/user")
          (resolve (posix "/home/user")
             (Path_of (posix "/home/user") (filename frame_a))).
Proof.
  split; [apply posix_resolves_to_absolute|].
  split; [reflexivity|]. split; [reflexivity|]. split; [reflexivity|].
  apply (format_frame_shows_recorded_links_resolved
           (posix "/home/user") frame_a "file").
  - apply posix_resolves_to_absolute.
  - reflexivity.
Defined.

(** ** Output of the printing functions *)

Lemma log_nil (w : world) : log w [] = w.
Proof. destruct w as [m o]. unfold log. cbn. now rewrite app_nil_r. Qed.

Lemma log_log (w : world) (es1 es2 : list event) :
  log (log w es1) es2 = log w (es1 ++ es2).
Proof. unfold log. cbn. now rewrite app_assoc. Qed.

Lemma builtins_print_one (s sep end_ : string) (f : stream) (w : world) :
  builtins_print [s] sep end_ (Some f) false w
  = (Returned tt, log w [Write f (s +:+ end_)]).
Proof. reflexivity. Qed.

Lemma for_each_print {A} (g : A -> string) (f : stream) (xs : list A) :
  forall w : world,
    for_each xs (fun x => builtins_print [g x] " " "" (Some f) false) w
    = (Returned tt, log w (List.map (fun x => Write f (g x)) xs)).
Proof.
  induction xs as [|x xs IH]; intros w; cbn [for_each List.map].
  - unfold ret. now rewrite log_nil.
  - unfold bind. rewrite builtins_print_one, IH, log_log.
    cbn [Str.join]. now rewrite StrFacts.app_nil_r.
Qed.

(** C6.  Called where no caller frame exists -- the runtime has no frame
    objects, or no frame lies outside the call -- [hyperlinked] returns the
    text it was given, and the output is what it was. *)
Theorem hyperlinked_without_caller_frame
    (fs : pathlib) (rt : interpreter) (stack : list FrameSummary)
    (text : string) (w : world) :
  currentframe_supported rt = false \/ stack = [] ->
  hyperlinked fs rt stack text w = (Returned text, w).
Proof.
  intros H. unfold hyperlinked, bind, get_module, inspect_currentframe.
  destruct (currentframe_supported rt).
  - destruct H as [H | ->]; [discriminate|]. reflexivity.
  - reflexivity.
Qed.

Lemma hyperlinked_without_caller_frame_witness :
  hyperlinked (posix "/home/user")
    {| currentframe_supported := true; module_file := "/lib/hyperlinked.py" |}
    [] "x" (boot ∅)
  = (Returned "x", boot ∅).
Proof.
  apply (hyperlinked_without_caller_frame (posix "/home/user")
           {| currentframe_supported := true;
              module_file := "/lib/hyperlinked.py" |} [] "x" (boot ∅)).
  right. reflexivity.
Defined.

(** C7.  For every exception type, value and traceback, [excepthook]
    returns [None] and appends to standard error, in this order: the header
    line [Traceback (most recent call last):], for each frame of the
    traceback from the outermost to the innermost its hyperlinked format
    (source line included when there is one), and the lines that the
    standard formatter renders for the exception type and value. *)
Theorem excepthook_writes_traceback
    (fs : pathlib) {ExcType ExcValue : Type}
    (format_exception_only : ExcType -> ExcValue -> list string)
    (exc_type : ExcType) (exc_value : ExcValue) (tb : traceback)
    (scheme : option string) (w : world) :
  excepthook fs format_exception_only exc_type exc_value tb scheme w
  = (Returned tt,
     log w
       ([Write sys_stderr
           ("Traceback (most recent call last):" +:+ Str.chr Str.newline)]
        ++ List.map
             (fun frame =>
                Write sys_stderr
                  (_format_hyperlinked_frame fs frame
                     (scheme_or_default (loaded w) scheme)))
             (walk_tb tb)
        ++ List.map (Write sys_stderr)
             (format_exception_only exc_type exc_value))).
Proof.
  unfold excepthook, traceback_extract_tb.
  unfold bind at 1. unfold get_module.
  unfold bind at 1. rewrite builtins_print_one.
  unfold bind at 1.
  rewrite (for_each_print
             (fun frame => _format_hyperlinked_frame fs frame
                             (scheme_or_default (loaded w) scheme))).
  rewrite (for_each_print (fun line_ : string => line_)).
  now rewrite !log_log.
Qed.

(** ** The stack dump *)

Lemma length_StackSummary_extract (frame_gen : list FrameSummary) (l : Z) :
  Z.of_nat (length (StackSummary_extract frame_gen (Some l))) <= Z.abs l.
Proof.
  unfold StackSummary_extract, last_n.
  destruct (Z.leb_spec 0 l).
  - rewrite length_take. lia.
  - rewrite length_drop. lia.
Qed.

(** What the walk from the library's own frame keeps: either the own frame
    and a first part of the callers, or a last part of the callers only. *)
Lemma StackSummary_extract_own
    (own : FrameSummary) (stack : list FrameSummary) (limit : option Z) :
  (exists k : nat,
     StackSummary_extract (own :: stack) limit = own :: take k stack)
  \/ (exists j : nat,
        StackSummary_extract (own :: stack) limit = drop j stack).
Proof.
  unfold StackSummary_extract, last_n. destruct limit as [l|].
  - destruct (Z.leb_spec 0 l).
    + destruct (Z.to_nat l) as [|k].
      * right. exists (length stack). now rewrite drop_all.
      * left. now exists k.
    + cbn [length].
      destruct (S (length stack) - Z.to_nat (- l))%nat as [|d].
      * left. exists (length stack). now rewrite firstn_all.
      * right. now exists d.
  - left. exists (length stack). now rewrite firstn_all.
Qed.

Lemma removelast_prefix {A} (l : list A) :
  exists t : list A, l = List.removelast l ++ t.
Proof.
  destruct l as [|a l].
  - now exists [].
  - exists [List.last (a :: l) a]. now apply app_removelast_last.
Qed.

Lemma length_removelast {A} (l : list A) :
  length (List.removelast l) = Nat.pred (length l).
Proof.
  rewrite removelast_firstn_len, length_take. lia.
Qed.

(** The frames [print_stack] formats when no frame is given. *)
Lemma own_frame_dropped
    (own : FrameSummary) (stack : list FrameSummary) (limit : option Z) :
  exists pre suf : list FrameSummary,
    List.rev stack
    = pre
      ++ List.removelast
           (traceback_extract_stack (own :: stack) limit)
      ++ suf.
Proof.
  unfold traceback_extract_stack.
  destruct (StackSummary_extract_own own stack limit) as [[k ->] | [j ->]].
  - cbn [List.rev]. rewrite removelast_last.
    exists (List.rev (drop k stack)), [].
    rewrite app_nil_r, <- rev_app_distr. now rewrite take_drop.
  - destruct (removelast_prefix (List.rev (drop j stack))) as [t Ht].
    exists [], (t ++ List.rev (take j stack)).
    cbn [app]. rewrite app_assoc, <- Ht, <- rev_app_distr.
    now rewrite take_drop.
Qed.

Lemma own_frame_dropped_nonneg
    (own : FrameSummary) (stack : list FrameSummary) (n : Z) :
  0 <= n ->
  List.removelast (traceback_extract_stack (own :: stack) (Some (n + 1)))
  = List.rev (take (Z.to_nat n) stack).
Proof.
  intros Hn. unfold traceback_extract_stack, StackSummary_extract.
  destruct (Z.leb_spec 0 (n + 1)); [|lia].
  replace (Z.to_nat (n + 1)) with (S (Z.to_nat n)) by lia.
  cbn [take firstn List.rev]. apply removelast_last.
Qed.

(** C8.  [print_stack] writes, to the stream it is given and to standard
    error when it is given none, the hyperlinked format of every frame it
    extracted, oldest frame first, and nothing else.  With no starting frame
    these frames are a run of the callers' frames, its own frame left out:
    all callers when there is no limit, the [limit] innermost ones under a
    limit; with a starting frame they are what the extraction from that
    frame yields.  Under a limit at most [limit] frames are written. *)
Theorem print_stack_writes_caller_frames
    (fs : pathlib) (rt : interpreter) (stack : list FrameSummary)
    (f : option pyframe) (limit : option Z) (file : option stream)
    (scheme : option string) (w : world) :
  exists frames : list FrameSummary,
    snd (print_stack fs rt stack f limit file scheme w)
    = log w
        (List.map
           (fun frame =>
              Write (default sys_stderr file)
                (_format_hyperlinked_frame fs frame
                   (scheme_or_default (loaded w) scheme)))
           frames)
    /\ (currentframe_supported rt = true \/ is_Some f ->
        fst (print_stack fs rt stack f limit file scheme w) = Returned tt)
    /\ (f = None ->
        exists pre suf : list FrameSummary,
          List.rev stack = pre ++ frames ++ suf)
    /\ (f = None -> currentframe_supported rt = true -> limit = None ->
        frames = List.rev stack)
    /\ (forall n : Z,
          f = None -> currentframe_supported rt = true ->
          limit = Some n -> 0 <= n ->
          frames = List.rev (take (Z.to_nat n) stack))
    /\ (forall start : pyframe,
          f = Some start -> frames = traceback_extract_stack start limit)
    /\ (forall n : Z,
          limit = Some n -> 0 <= n -> Z.of_nat (length frames) <= n)
    /\ (forall n : Z,
          limit = Some n -> Z.of_nat (length frames) <= Z.abs n).
Proof.
  assert (Hfile : match file with None => sys_stderr | Some s => s end
                  = default sys_stderr file) by now destruct file.
  assert (Hlen : forall (frames : list FrameSummary) (n : Z),
            Z.of_nat (length frames) <= Z.abs n -> 0 <= n ->
            Z.of_nat (length frames) <= n) by (intros; lia).
  unfold print_stack, bind at 1, get_module.
  destruct f as [start|].
  - exists (traceback_extract_stack start limit).
    unfold bind, ret. rewrite for_each_print, Hfile. cbn [fst snd].
    repeat split; try discriminate; try congruence.
    + intros n ->. intros Hn. apply Hlen; [|assumption].
      unfold traceback_extract_stack. rewrite length_rev.
      apply length_StackSummary_extract.
    + intros n ->. unfold traceback_extract_stack. rewrite length_rev.
      apply length_StackSummary_extract.
  - unfold bind, extract_stack_here, ret, raise.
    destruct (currentframe_supported rt) eqn:Hsup.
    + set (own := own_frame rt "print_stack" 97 _).
      set (lim := match limit with Some l => Some (l + 1) | None => None end).
      exists (List.removelast (traceback_extract_stack (own :: stack) lim)).
      rewrite for_each_print, Hfile. cbn [fst snd].
      assert (Hbound : forall n : Z, limit = Some n ->
                Z.of_nat (length (List.removelast
                  (traceback_extract_stack (own :: stack) lim))) <= Z.abs n).
      { intros n ->. subst lim. rewrite length_removelast.
        unfold traceback_extract_stack. rewrite length_rev.
        pose proof (length_StackSummary_extract (own :: stack) (n + 1)).
        lia. }
      repeat split; try discriminate; try congruence.
      * intros _. apply own_frame_dropped.
      * intros _ _ ->. subst lim. unfold traceback_extract_stack.
        cbn [StackSummary_extract List.rev]. apply removelast_last.
      * intros n _ _ -> Hn. subst lim. now apply own_frame_dropped_nonneg.
      * intros n Hl Hn. apply Hlen; [now apply Hbound | assumption].
      * assumption.
    + exists []. cbn [fst snd List.map length]. rewrite log_nil.
      repeat split; try discriminate; try congruence.
      * intros [H | [x H]]; discriminate.
      * intros _. exists (List.rev stack), []. now rewrite app_nil_r.
      * intros n _ Hn. cbn. lia.
      * intros n _. cbn. lia.
Qed.

(** ** The module's state is read, never written *)

Lemma keeps_module_ret {A} (a : A) : keeps_module (ret a).
Proof. intros w. reflexivity. Qed.

Lemma keeps_module_raise {A} (e : exn) : keeps_module (@raise A e).
Proof. intros w. reflexivity. Qed.

Lemma keeps_module_get : keeps_module get_module.
Proof. intros w. reflexivity. Qed.

Lemma keeps_module_emit (e : event) : keeps_module (emit e).
Proof. intros w. reflexivity. Qed.

Lemma keeps_module_bind {A B} (c : M A) (k : A -> M B) :
  keeps_module c -> (forall a, keeps_module (k a)) -> keeps_module (bind c k).
Proof.
  intros Hc Hk w. unfold bind. specialize (Hc w).
  destruct (c w) as [[a|e] w']; cbn [snd] in *.
  - now rewrite Hk.
  - assumption.
Qed.

Create HintDb keeps.

#[local] Hint Resolve keeps_module_ret keeps_module_raise keeps_module_get
  keeps_module_emit keeps_module_bind : keeps.

Lemma keeps_module_builtins_print
    (objects : list string) (sep end_ : string) (file : option stream)
    (flush : bool) :
  keeps_module (builtins_print objects sep end_ file flush).
Proof. unfold builtins_print. destruct flush; auto with keeps. Qed.

#[local] Hint Resolve keeps_module_builtins_print : keeps.

Lemma keeps_module_for_each {A} (xs : list A) (body : A -> M unit) :
  (forall x, keeps_module (body x)) -> keeps_module (for_each xs body).
Proof.
  intros Hb. induction xs as [|x xs IH]; cbn [for_each]; auto with keeps.
Qed.

#[local] Hint Resolve keeps_module_for_each : keeps.

Lemma keeps_module_print
    (fs : pathlib) (rt : interpreter) {Any : Type} (str : Any -> string)
    (depth : nat) :
  forall (stack : list FrameSummary) (args : list Any) (sep end_ : string)
         (file : option stream) (flush : bool) (scheme : option string),
    keeps_module (print fs rt str depth stack args sep end_ file flush scheme).
Proof.
  induction depth as [|depth IH]; intros; cbn [print]; [auto with keeps|].
  apply keeps_module_bind; [auto with keeps|]. intros m.
  destruct (inspect_currentframe rt _ stack) as [frame|]; [|apply IH].
  destruct (2 <=? length (inspect_getouterframes frame))%nat; [|apply IH].
  destruct (inspect_getouterframes frame !! 1%nat); auto with keeps.
Qed.

Lemma keeps_module_hyperlinked
    (fs : pathlib) (rt : interpreter) (stack : list FrameSummary)
    (text : string) :
  keeps_module (hyperlinked fs rt stack text).
Proof.
  unfold hyperlinked. apply keeps_module_bind; [auto with keeps|]. intros m.
  destruct (inspect_currentframe rt _ stack) as [frame|]; [|auto with keeps].
  destruct (length (inspect_getouterframes frame) <? 2)%nat;
    [auto with keeps|].
  destruct (inspect_getouterframes frame !! 1%nat); auto with keeps.
Qed.

Lemma keeps_module_print_stack
    (fs : pathlib) (rt : interpreter) (stack : list FrameSummary)
    (f : option pyframe) (limit : option Z) (file : option stream)
    (scheme : option string) :
  keeps_module (print_stack fs rt stack f limit file scheme).
Proof.
  unfold print_stack, extract_stack_here.
  apply keeps_module_bind; [auto with keeps|]. intros m.
  apply keeps_module_bind.
  - destruct f; [auto with keeps|].
    destruct (currentframe_supported rt); auto with keeps.
  - intros frames. auto with keeps.
Qed.

Lemma keeps_module_excepthook
    (fs : pathlib) {ExcType ExcValue : Type}
    (format_exception_only : ExcType -> ExcValue -> list string)
    (exc_type : ExcType) (exc_value : ExcValue) (tb : traceback)
    (scheme : option string) :
  keeps_module
    (excepthook fs format_exception_only exc_type exc_value tb scheme).
Proof.
  unfold excepthook. repeat (apply keeps_module_bind; intros);
    auto with keeps.
Qed.

(** ** The default scheme *)

Lemma print_default_scheme
    (fs : pathlib) (rt : interpreter) {Any : Type} (str : Any -> string)
    (depth : nat) (stack : list FrameSummary) (args : list Any)
    (sep end_ : string) (file : option stream) (flush : bool) (w : world) :
  print fs rt str depth stack args sep end_ file flush None w
  = print fs rt str depth stack args sep end_ file flush
      (Some (scheme_default (loaded w))) w.
Proof. destruct depth; reflexivity. Qed.

Lemma hyperlinked_with_caller_frame
    (fs : pathlib) (rt : interpreter) (caller : FrameSummary)
    (stack : list FrameSummary) (text : string) (w : world) :
  currentframe_supported rt = true ->
  hyperlinked fs rt (caller :: stack) text w
  = (Returned
       (hyperlink_to_path fs text
          (resolve fs (Path_of fs (filename caller)))
          (Some (lineno caller)) (scheme_default (loaded w))),
     w).
Proof.
  intros Hsup. unfold hyperlinked, bind, get_module, inspect_currentframe.
  rewrite Hsup. reflexivity.
Qed.

(** C9.  With HYPERLINKED_SCHEME unset when the module is imported the
    default scheme is [file], and with it set the default is its value.
    Every operation called without a scheme behaves as if it had been given
    that default.  No operation of the library changes the module's state,
    so the value read at import stays the default. *)
Theorem default_scheme_from_environment
    (environ : gmap string string) (w : world)
    (Hw : loaded w = import_module environ) :
  let dflt := default "file" (environ !! "HYPERLINKED_SCHEME") in
  (environ !! "HYPERLINKED_SCHEME" = None -> dflt = "file")
  /\ (forall v : string,
        environ !! "HYPERLINKED_SCHEME" = Some v -> dflt = v)
  /\ SCHEME (loaded w) = dflt
  /\ scheme_default (loaded w) = dflt
  /\ (forall fs text path line,
        hyperlink_to_path_default fs (loaded w) text path line
        = hyperlink_to_path fs text path line dflt)
  /\ (forall fs rt (Any : Type) (str : Any -> string) depth stack args
             sep end_ file flush,
        print fs rt str depth stack args sep end_ file flush None w
        = print fs rt str depth stack args sep end_ file flush (Some dflt) w)
  /\ (forall fs rt caller stack text,
        currentframe_supported rt = true ->
        hyperlinked fs rt (caller :: stack) text w
        = (Returned
             (hyperlink_to_path fs text
                (resolve fs (Path_of fs (filename caller)))
                (Some (lineno caller)) dflt), w))
  /\ (forall fs rt stack f limit file,
        print_stack fs rt stack f limit file None w
        = print_stack fs rt stack f limit file (Some dflt) w)
  /\ (forall fs (ExcType ExcValue : Type)
             (format_exception_only : ExcType -> ExcValue -> list string)
             exc_type exc_value tb,
        excepthook fs format_exception_only exc_type exc_value tb None w
        = excepthook fs format_exception_only exc_type exc_value tb
            (Some dflt) w)
  /\ (forall fs rt (Any : Type) (str : Any -> string) depth stack args
             sep end_ file flush scheme,
        keeps_module
          (print fs rt str depth stack args sep end_ file flush scheme))
  /\ (forall fs rt stack text, keeps_module (hyperlinked fs rt stack text))
  /\ (forall fs rt stack f limit file scheme,
        keeps_module (print_stack fs rt stack f limit file scheme))
  /\ (forall fs (ExcType ExcValue : Type)
             (format_exception_only : ExcType -> ExcValue -> list string)
             exc_type exc_value tb scheme,
        keeps_module
          (excepthook fs format_exception_only exc_type exc_value tb scheme)).
Proof.
  cbn zeta.
  assert (Hd : scheme_default (loaded w)
               = default "file" (environ !! "HYPERLINKED_SCHEME"))
    by (rewrite Hw; reflexivity).
  repeat apply conj.
  - intros ->. reflexivity.
  - intros v ->. reflexivity.
  - rewrite Hw. reflexivity.
  - exact Hd.
  - intros. unfold hyperlink_to_path_default, scheme_or_default.
    cbn [default from_option]. now rewrite Hd.
  - intros. rewrite print_default_scheme. now rewrite Hd.
  - intros. rewrite hyperlinked_with_caller_frame by assumption.
    now rewrite Hd.
  - intros. rewrite <- Hd. reflexivity.
  - intros. rewrite <- Hd. reflexivity.
  - intros. apply keeps_module_print.
  - intros. apply keeps_module_hyperlinked.
  - intros. apply keeps_module_print_stack.
  - intros. apply keeps_module_excepthook.
Qed.

Lemma default_scheme_from_environment_witness :
  loaded (boot ∅) = import_module ∅
  /\ scheme_default (loaded (boot ∅)) = "file"
  /\ scheme_default
       (loaded (boot (<["HYPERLINKED_SCHEME" := "vscode"]> ∅))) = "vscode".
Proof.
  split; [reflexivity|]. split.
  - destruct (default_scheme_from_environment ∅ (boot ∅) eq_refl)
      as (Hunset & _ & _ & Hd & _).
    rewrite Hd. apply Hunset. reflexivity.
  - destruct (default_scheme_from_environment
                (<["HYPERLINKED_SCHEME" := "vscode"]> ∅)
                (boot (<["HYPERLINKED_SCHEME" := "vscode"]> ∅)) eq_refl)
      as (_ & Hset & _ & Hd & _).
    rewrite Hd. apply Hset. apply lookup_insert_eq.
Defined.

(** ** The fallback of the linked print *)

Lemma print_without_frames_raises
    (fs : pathlib) (rt : interpreter) {Any : Type} (str : Any -> string)
    (Hnone : currentframe_supported rt = false) (depth : nat) :
  forall (stack : list FrameSummary) (args : list Any) (sep end_ : string)
         (file : option stream) (flush : bool) (scheme : option string)
         (w : world),
    print fs rt str depth stack args sep end_ file flush scheme w
    = (Raised RecursionError, w).
Proof.
  induction depth as [|depth IH]; intros; [reflexivity|].
  cbn [print]. unfold bind at 1. unfold get_module, inspect_currentframe.
  rewrite Hnone. apply IH.
Qed.

(** C3 does not hold of the code.  The last line of [print] calls [print],
    which in this module is the function itself and not the built-in.  On a
    runtime without frame objects every call therefore calls itself again
    until the recursion limit is hit: the call raises [RecursionError] and
    nothing is written.  With frame objects but no frame outside the call,
    the inner call sees the outer one as its caller: nothing plain is
    printed, the text is linked to line 40 of this module, under the default
    scheme whatever scheme was asked for. *)
Theorem print_fallback_calls_itself
    (fs : pathlib) (rt : interpreter) {Any : Type} (str : Any -> string)
    (depth : nat) (stack : list FrameSummary) (args : list Any)
    (sep end_ : string) (file : option stream) (flush : bool)
    (scheme : option string) (w : world) :
  (currentframe_supported rt = false ->
   print fs rt str depth stack args sep end_ file flush scheme w
   = (Raised RecursionError, w))
  /\ (currentframe_supported rt = true ->
      print fs rt str (S (S depth)) [] args sep end_ file flush scheme w
      = builtins_print
          [hyperlink_to_path fs (Str.join sep (List.map str args))
             (resolve fs (Path_of fs (module_file rt))) (Some 40)
             (scheme_default (loaded w))]
          " " end_ (Some (default sys_stdout file)) flush w).
Proof.
  split; intros Hsup.
  - now apply print_without_frames_raises.
  - cbn [print]. unfold bind at 1. unfold get_module, inspect_currentframe.
    rewrite Hsup. reflexivity.
Qed.

(** The call [print("x")] on a runtime without frame objects, under a
    recursion limit of 1000, and what a plain print of the same arguments
    writes. *)
Lemma print_fallback_calls_itself_witness :
  let rt := {| currentframe_supported := false;
               module_file := "/lib/hyperlinked/__init__.py" |} in
  print (posix "/home/user") rt (fun s : string => s) 1000 [] ["x"]
    " " (Str.chr Str.newline) None false None (boot ∅)
  = (Raised RecursionError, boot ∅)
  /\ builtins_print ["x"] " " (Str.chr Str.newline) None false (boot ∅)
     = (Returned tt,
        log (boot ∅) [Write sys_stdout ("x" +:+ Str.chr Str.newline)]).
Proof.
  split; [|reflexivity].
  apply (print_fallback_calls_itself (posix "/home/user")
           {| currentframe_supported := false;
              module_file := "/lib/hyperlinked/__init__.py" |}
           (fun s : string => s) 1000 [] ["x"] " " (Str.chr Str.newline)
           None false None (boot ∅)).
  reflexivity.
Defined.

(** The same call on a runtime with frame objects, made from outside any
    Python frame: the text goes out linked to the module's own line 40. *)
Lemma print_without_outer_frame_links_to_itself :
  let rt := {| currentframe_supported := true;
               module_file := "/lib/hyperlinked/__init__.py" |} in
  print (posix "/home/user") rt (fun s : string => s) 1000 [] ["x"]
    " " (Str.chr Str.newline) None false (Some "vscode") (boot ∅)
  = (Returned tt,
     log (boot ∅)
       [Write sys_stdout
          (hyperlink "x" "file://file//lib/hyperlinked/__init__.py:40"
           +:+ Str.chr Str.newline)]).
Proof. vm_compute. reflexivity. Qed.

(** ** Evaluations *)

Lemma print_stack_writes_caller_frames_witness :
  let rt := {| currentframe_supported := true;
               module_file := "/lib/hyperlinked/__init__.py" |} in
  let fs := posix "/home/user" in
  exists middle inner : FrameSummary,
    name middle = "middle" /\ name inner = "inner"
    /\ snd (print_stack fs rt caller_frames None (Some 2) None None (boot ∅))
       = log (boot ∅)
           [Write sys_stderr (_format_hyperlinked_frame fs middle "file");
            Write sys_stderr (_format_hyperlinked_frame fs inner "file")].
Proof.
  cbn zeta.
  destruct (print_stack_writes_caller_frames (posix "/home/user")
              {| currentframe_supported := true;
                 module_file := "/lib/hyperlinked/__init__.py" |}
              caller_frames None (Some 2) None None (boot ∅))
    as (frames & Hout & _ & _ & _ & Hframes & _).
  specialize (Hframes 2 eq_refl eq_refl eq_refl ltac:(lia)).
  cbn in Hframes. subst frames.
  eexists _, _. split; [|split]; [| |exact Hout]; reflexivity.
Defined.

Example format_frame_a :
  _format_hyperlinked_frame (posix "/home/user") frame_a "vscode"
  = "  " +:+ open_link "vscode://file//home/user/a.py:1"
    +:+ "File " +:+ Str.chr Str.dquote +:+ "a.py" +:+ Str.chr Str.dquote
    +:+ ", line 1" +:+ close_link +:+ ", in f" +:+ Str.chr Str.newline
    +:+ "    x = 1" +:+ Str.chr Str.newline.
Proof. reflexivity. Qed.

Example format_frame_a_no_source :
  _format_hyperlinked_frame (posix "/home/user") frame_a_no_source "vscode"
  = "  " +:+ open_link "vscode://file//home/user/a.py:1"
    +:+ "File " +:+ Str.chr Str.dquote +:+ "a.py" +:+ Str.chr Str.dquote
    +:+ ", line 1" +:+ close_link +:+ ", in f" +:+ Str.chr Str.newline.
Proof. reflexivity. Qed.

(** * Further properties of the code *)

(** ** The linked print with a caller *)

Lemma builtins_print_events
    (s sep end_ : string) (f : stream) (flush : bool) (w : world) :
  builtins_print [s] sep end_ (Some f) flush w
  = (Returned tt, log w (print_events f s end_ flush)).
Proof.
  unfold builtins_print, print_events, bind, emit, ret, log.
  destruct flush; cbn; [|reflexivity].
  now rewrite <- app_assoc.
Qed.

Lemma caller_url_eq
    (fs : pathlib) (caller : FrameSummary) (scheme : string) :
  hyperlink_to_path_url fs
    (resolve fs (Path_of fs (filename caller)))
    (Some (lineno caller)) scheme
  = caller_url fs caller scheme.
Proof.
  unfold hyperlink_to_path_url, caller_url. now rewrite !StrFacts.app_assoc.
Qed.

Lemma print_step_linked
    (fs : pathlib) (rt : interpreter) {Any : Type} (str : Any -> string)
    (depth : nat) (caller : FrameSummary) (stack : list FrameSummary)
    (args : list Any) (sep end_ : string) (file : option stream)
    (flush : bool) (scheme : option string) (w : world) :
  currentframe_supported rt = true ->
  print fs rt str (S depth) (caller :: stack) args sep end_ file flush
    scheme w
  = (Returned tt,
     log w
       (print_events (default sys_stdout file)
          (hyperlink (Str.join sep (List.map str args))
             (caller_url fs caller (scheme_or_default (loaded w) scheme)))
          end_ flush)).
Proof.
  intros Hsup. cbn [print]. unfold bind at 1.
  unfold get_module, inspect_currentframe. rewrite Hsup.
  cbn [inspect_getouterframes List.map length Nat.leb lookup list_lookup
       frame_info fi_filename fi_lineno].
  rewrite builtins_print_events. unfold hyperlink_to_path.
  now rewrite caller_url_eq.
Qed.




(** ** Reading a hyperlink back *)

Lemma string_app_inv_head (a b c : string) : a +:+ b = a +:+ c -> b = c.
Proof.
  induction a as [|x a IH]; cbn; [trivial|].
  intros H. injection H as H. now apply IH.
Qed.

Lemma string_app_inv_tail (c : string) :
  forall a b : string, a +:+ c = b +:+ c -> a = b.
Proof.
  induction a as [|x a IH]; intros [|y b] H; cbn in H.
  - reflexivity.
  - apply (f_equal String.length) in H. cbn in H.
    rewrite StrFacts.length_app in H. lia.
  - apply (f_equal String.length) in H. cbn in H.
    rewrite StrFacts.length_app in H. lia.
  - injection H as -> H. f_equal. now apply IH.
Qed.

(** Two strings free of [c] that are followed by [c] end at the same place. *)
Lemma split_at_first_char (c : ascii) :
  forall u1 u2 r1 r2 : string,
    has_char c u1 = false -> has_char c u2 = false ->
    u1 +:+ String c r1 = u2 +:+ String c r2 ->
    u1 = u2 /\ r1 = r2.
Proof.
  induction u1 as [|x u1 IH]; intros [|y u2] r1 r2 H1 H2 H;
    cbn in H, H1, H2.
  - injection H as H. now split.
  - injection H as Hc _. subst y. now rewrite Ascii.eqb_refl in H2.
  - injection H as Hc _. subst x. now rewrite Ascii.eqb_refl in H1.
  - injection H as -> H.
    apply orb_false_iff in H1 as [_ H1]. apply orb_false_iff in H2 as [_ H2].
    destruct (IH u2 r1 r2 H1 H2 H) as [-> ->]. now split.
Qed.

(** X3.  A hyperlink can be read back: when the urls hold no escape
    character, two calls of [hyperlink] that return the same string were
    given the same text and the same url. *)
Theorem hyperlink_injective (text1 url1 text2 url2 : string) :
  has_char Str.ESC url1 = false ->
  has_char Str.ESC url2 = false ->
  hyperlink text1 url1 = hyperlink text2 url2 ->
  text1 = text2 /\ url1 = url2.
Proof.
  intros H1 H2 H. rewrite !hyperlink_unfold in H.
  unfold open_link in H. cbn [append] in H.
  injection H as H.
  change (String Str.ESC (String Str.backslash ""))
    with (String Str.ESC (Str.chr Str.backslash)) in H.
  rewrite !StrFacts.app_assoc in H. cbn [append] in H.
  destruct (split_at_first_char Str.ESC url1 url2 _ _ H1 H2 H) as [-> Hr].
  cbn [Str.chr append] in Hr. injection Hr as Hr.
  split; [|reflexivity]. now apply (string_app_inv_tail close_link).
Qed.

Lemma hyperlink_injective_witness :
  has_char Str.ESC "file://file//tmp/a.py:1" = false
  /\ (forall text : string,
        hyperlink text "file://file//tmp/a.py:1"
        = hyperlink "x" "file://file//tmp/a.py:1" ->
        text = "x").
Proof.
  split; [reflexivity|]. intros text H.
  apply (hyperlink_injective text "file://file//tmp/a.py:1"
           "x" "file://file//tmp/a.py:1"); [reflexivity | reflexivity | exact H].
Defined.

(** X4.  Neither argument is escaped: a string terminator inside the url
    ends the url early.  Moving what follows the terminator from the url to
    the front of the text gives the very same output, so a link to [a]
    showing [b ESC \\ c] and a link to [a ESC \\ b] showing [c] cannot be
    told apart. *)
Theorem hyperlink_url_not_escaped (a b c : string) :
  hyperlink (b +:+ string_terminator +:+ c) a
  = hyperlink c (a +:+ string_terminator +:+ b).
Proof.
  rewrite !hyperlink_unfold. unfold open_link, string_terminator.
  cbn [append]. now rewrite !StrFacts.app_assoc.
Qed.


(** ** The wrap helper with a caller *)

(** X5.  Called from Python code on a runtime with frame objects,
    [hyperlinked] returns the text between the open-link sequence for the
    caller's file and line, under the default scheme, and the close-link
    sequence; it writes nothing. *)
Theorem hyperlinked_links_to_caller
    (fs : pathlib) (rt : interpreter) (caller : FrameSummary)
    (stack : list FrameSummary) (text : string) (w : world) :
  currentframe_supported rt = true ->
  let url :=
    scheme_default (loaded w) +:+ "://file/"
    +:+ Path_str fs
          (resolve fs (resolve fs (Path_of fs (filename caller))))
    +:+ ":" +:+ Str.str_of_int (lineno caller) in
  hyperlinked fs rt (caller :: stack) text w
  = (Returned (open_link url +:+ text +:+ close_link), w).
Proof.
  intros Hsup. cbn zeta.
  rewrite hyperlinked_with_caller_frame by assumption.
  unfold hyperlink_to_path. rewrite caller_url_eq, hyperlink_unfold.
  reflexivity.
Qed.

Lemma hyperlinked_links_to_caller_witness :
  hyperlinked (posix "/home/user")
    {| currentframe_supported := true;
       module_file := "/lib/hyperlinked/__init__.py" |}
    caller_frames "x" (boot ∅)
  = (Returned
       (open_link "file://file//home/user/lib.py:7" +:+ "x" +:+ close_link),
     boot ∅).
Proof.
  apply (hyperlinked_links_to_caller (posix "/home/user")
           {| currentframe_supported := true;
              module_file := "/lib/hyperlinked/__init__.py" |}
           {| filename := "lib.py"; lineno := 7; name := "inner";
              line := Some "hyperlinked.print_stack(limit=2)" |}).
  reflexivity.
Defined.

(** X6.  [print] without a scheme is the built-in print of what
    [hyperlinked] returns at the same place: from the same caller,
    [print(args, sep, end, file, flush)] writes what
    [builtins.print(hyperlinked(sep.join(map(str, args))), end, file or
    sys.stdout, flush)] writes. *)
Theorem print_is_builtin_print_of_hyperlinked
    (fs : pathlib) (rt : interpreter) {Any : Type} (str : Any -> string)
    (depth : nat) (caller : FrameSummary) (stack : list FrameSummary)
    (args : list Any) (sep end_ : string) (file : option stream)
    (flush : bool) (w : world) :
  currentframe_supported rt = true ->
  print fs rt str (S depth) (caller :: stack) args sep end_ file flush
    None w
  = (linked <- hyperlinked fs rt (caller :: stack)
                 (Str.join sep (List.map str args)) ;;
     builtins_print [linked] " " end_ (Some (default sys_stdout file))
       flush) w.
Proof.
  intros Hsup. rewrite print_step_linked by assumption.
  unfold bind. rewrite hyperlinked_with_caller_frame by assumption.
  rewrite builtins_print_events. unfold hyperlink_to_path.
  now rewrite caller_url_eq.
Qed.

Lemma print_is_builtin_print_of_hyperlinked_witness :
  let rt := {| currentframe_supported := true;
               module_file := "/lib/hyperlinked/__init__.py" |} in
  let fs := posix "/home/user" in
  print fs rt (fun s : string => s) 5 caller_frames ["a"; "b"] " "
    (Str.chr Str.newline) None false None (boot ∅)
  = (linked <- hyperlinked fs rt caller_frames "a b" ;;
     builtins_print [linked] " " (Str.chr Str.newline) (Some sys_stdout)
       false) (boot ∅).
Proof.
  apply (print_is_builtin_print_of_hyperlinked (posix "/home/user")
           {| currentframe_supported := true;
              module_file := "/lib/hyperlinked/__init__.py" |}
           (fun s : string => s) 4
           {| filename := "lib.py"; lineno := 7; name := "inner";
              line := Some "hyperlinked.print_stack(limit=2)" |}).
  reflexivity.
Defined.

(** X8.  Where resolving the caller's path a second time changes nothing,
    [print] links its text to the url that the frame formatter puts behind
    the same frame. *)
Theorem print_url_is_frame_url
    (fs : pathlib) (rt : interpreter) {Any : Type} (str : Any -> string)
    (depth : nat) (caller : FrameSummary) (stack : list FrameSummary)
    (args : list Any) (sep end_ : string) (file : option stream)
    (flush : bool) (scheme : string) (w : world) :
  currentframe_supported rt = true ->
  Path_str fs (resolve fs (resolve fs (Path_of fs (filename caller))))
  = Path_str fs (resolve fs (Path_of fs (filename caller))) ->
  let url := frame_url fs caller scheme in
  print fs rt str (S depth) (caller :: stack) args sep end_ file flush
    (Some scheme) w
  = (Returned tt,
     log w
       (print_events (default sys_stdout file)
          (hyperlink (Str.join sep (List.map str args)) url) end_ flush))
  /\ exists rest : string,
       _format_hyperlinked_frame fs caller scheme
       = "  " +:+ hyperlink (location_text_of caller) url +:+ rest.
Proof.
  intros Hsup Hidem. cbn zeta. split.
  - rewrite print_step_linked by assumption.
    unfold caller_url, frame_url, scheme_or_default.
    cbn [default from_option]. now rewrite Hidem.
  - eexists. rewrite format_frame_eq, !StrFacts.app_assoc. reflexivity.
Qed.

Lemma print_url_is_frame_url_witness :
  let rt := {| currentframe_supported := true;
               module_file := "/lib/hyperlinked/__init__.py" |} in
  let fs := posix "/home/user" in
  frame_url fs frame_a "vscode" = "vscode://file//home/user/a.py:1"
  /\ print fs rt (fun s : string => s) 1 [frame_a] ["x"] " " "" None false
       (Some "vscode") (boot ∅)
     = (Returned tt,
        log (boot ∅)
          (print_events sys_stdout
             (hyperlink "x" "vscode://file//home/user/a.py:1") "" false)).
Proof.
  split; [reflexivity|].
  apply (print_url_is_frame_url (posix "/home/user")
           {| currentframe_supported := true;
              module_file := "/lib/hyperlinked/__init__.py" |}
           (fun s : string => s) 0 frame_a [] ["x"] " " "" None false
           "vscode" (boot ∅)); reflexivity.
Defined.

(** ** The stack dump under a negative limit *)

Lemma removelast_rev_drop {A} (l : list A) (d : nat) :
  List.removelast (List.rev (drop d l)) = List.rev (drop (S d) l).
Proof.
  revert d. induction l as [|a l IH]; intros d.
  - now rewrite !drop_nil.
  - destruct d as [|d].
    + cbn [drop skipn List.rev]. rewrite drop_0. apply removelast_last.
    + cbn [drop skipn]. apply IH.
Qed.

(** X7.  With no starting frame and a negative limit [n], [print_stack]
    asks the traceback module for limit [n + 1], that is for the [-n - 1]
    outermost frames of the stack that ends in its own frame, and drops the
    last frame it gets.  With at least [-n - 1] callers it therefore writes
    the [-n - 2] outermost callers, oldest first, and nothing at all for
    [-1] and [-2]; with fewer callers it writes all of them. *)
Theorem print_stack_negative_limit
    (fs : pathlib) (rt : interpreter) (stack : list FrameSummary)
    (n : Z) (file : option stream) (scheme : option string) (w : world) :
  currentframe_supported rt = true ->
  n < 0 ->
  let written (frames : list FrameSummary) :=
    (Returned tt,
     log w
       (List.map
          (fun frame =>
             Write (default sys_stderr file)
               (_format_hyperlinked_frame fs frame
                  (scheme_or_default (loaded w) scheme)))
          (List.rev frames))) in
  ((Z.to_nat (- n - 1) <= length stack)%nat ->
   print_stack fs rt stack None (Some n) file scheme w
   = written (last_n (Z.to_nat (- n - 2)) stack))
  /\ ((length stack < Z.to_nat (- n - 1))%nat ->
      print_stack fs rt stack None (Some n) file scheme w = written stack).
Proof.
  intros Hsup Hn. cbn zeta.
  assert (Hfile : match file with None => sys_stderr | Some s => s end
                  = default sys_stderr file) by now destruct file.
  assert (Hrun : forall frames : list FrameSummary,
            List.removelast
              (traceback_extract_stack
                 (own_frame rt "print_stack" 97
                    "stack = traceback.extract_stack(limit=limit + 1 if limit is not None else None)["
                  :: stack) (Some (n + 1)))
            = List.rev frames ->
            print_stack fs rt stack None (Some n) file scheme w
            = (Returned tt,
               log w
                 (List.map
                    (fun frame =>
                       Write (default sys_stderr file)
                         (_format_hyperlinked_frame fs frame
                            (scheme_or_default (loaded w) scheme)))
                    (List.rev frames)))).
  { intros frames Hfr. unfold print_stack, bind at 1, get_module.
    unfold bind, extract_stack_here, ret. rewrite Hsup, Hfr.
    now rewrite for_each_print, Hfile. }
  split; intros Hlen; apply Hrun;
    unfold traceback_extract_stack, StackSummary_extract, last_n.
  - destruct (Z.leb_spec 0 (n + 1)) as [H0|H0].
    + assert (n = -1) by lia. subst n. cbn [Z.to_nat].
      replace (Z.to_nat (- -1 - 2)) with 0%nat by lia.
      rewrite Nat.sub_0_r, drop_all. reflexivity.
    + cbn [length].
      replace (S (length stack) - Z.to_nat (- (n + 1)))%nat
        with (S (length stack - Z.to_nat (- n - 1))) by lia.
      cbn [drop skipn]. rewrite removelast_rev_drop. f_equal. f_equal. lia.
  - destruct (Z.leb_spec 0 (n + 1)) as [H0|H0]; [lia|].
    cbn [length].
    replace (S (length stack) - Z.to_nat (- (n + 1)))%nat with 0%nat by lia.
    cbn [drop skipn List.rev]. apply removelast_last.
Qed.

Lemma print_stack_negative_limit_witness :
  let rt := {| currentframe_supported := true;
               module_file := "/lib/hyperlinked/__init__.py" |} in
  let fs := posix "/home/user" in
  print_stack fs rt caller_frames None (Some (-2)) None None (boot ∅)
  = (Returned tt, boot ∅)
  /\ exists outermost : FrameSummary,
       name outermost = "<module>"
       /\ print_stack fs rt caller_frames None (Some (-3)) None None (boot ∅)
          = (Returned tt,
             log (boot ∅)
               [Write sys_stderr
                  (_format_hyperlinked_frame fs outermost "file")]).
Proof.
  cbn zeta. split.
  - rewrite (proj1 (print_stack_negative_limit (posix "/home/user")
                      {| currentframe_supported := true;
                         module_file := "/lib/hyperlinked/__init__.py" |}
                      caller_frames (-2) None None (boot ∅)
                      eq_refl eq_refl)); [reflexivity | cbn; lia].
  - eexists. split; [|
      rewrite (proj1 (print_stack_negative_limit (posix "/home/user")
                        {| currentframe_supported := true;
                           module_file := "/lib/hyperlinked/__init__.py" |}
                        caller_frames (-3) None None (boot ∅)
                        eq_refl eq_refl)); [reflexivity | cbn; lia]].
    reflexivity.
Defined.

(** ** The module run as a script *)

(** X9.  Run as a script on a runtime with frame objects, the module writes
    three lines to standard output and nothing else: the greeting, the
    sentence and the value of [x], each inside a hyperlink to the line of
    this file that printed it (148, 149, 151) under the default scheme. *)
Theorem main_program_output
    (fs : pathlib) (rt : interpreter) (depth : nat)
    (outer : list FrameSummary) (w : world) :
  currentframe_supported rt = true ->
  let here (ln : string) :=
    scheme_default (loaded w) +:+ "://file/"
    +:+ Path_str fs (resolve fs (resolve fs (Path_of fs (module_file rt))))
    +:+ ":" +:+ ln in
  main_program fs rt (S depth) outer w
  = (Returned tt,
     log w
       [Write sys_stdout
          (hyperlink "Hello World from hprint!" (here "148")
           +:+ Str.chr Str.newline);
        Write sys_stdout
          (hyperlink "This is a normal print statement." (here "149")
           +:+ Str.chr Str.newline);
        Write sys_stdout
          (hyperlink "The value of x is: 10" (here "151")
           +:+ Str.chr Str.newline)]).
Proof.
  intros Hsup. cbn zeta. unfold main_program, module_frame.
  unfold bind. rewrite print_step_linked by assumption.
  rewrite print_step_linked by assumption.
  rewrite print_step_linked by assumption.
  rewrite !log_log. reflexivity.
Qed.

Lemma main_program_output_witness :
  main_program (posix "/home/user")
    {| currentframe_supported := true; module_file := "hyperlinked.py" |}
    1000 [] (boot ∅)
  = (Returned tt,
     log (boot ∅)
       [Write sys_stdout
          (hyperlink "Hello World from hprint!"
             "file://file//home/user/hyperlinked.py:148"
           +:+ Str.chr Str.newline);
        Write sys_stdout
          (hyperlink "This is a normal print statement."
             "file://file//home/user/hyperlinked.py:149"
           +:+ Str.chr Str.newline);
        Write sys_stdout
          (hyperlink "The value of x is: 10"
             "file://file//home/user/hyperlinked.py:151"
           +:+ Str.chr Str.newline)]).
Proof.
  pose proof (main_program_output (posix "/home/user")
                {| currentframe_supported := true;
                   module_file := "hyperlinked.py" |} 999 [] (boot ∅)
                eq_refl) as H.
  cbn zeta in H. rewrite H. reflexivity.
Defined.

(** ** The environment at import *)

(** X10.  Of the whole environment only HYPERLINKED_SCHEME reaches the
    module: setting or unsetting any other variable before the import
    leaves the imported module the same, and setting HYPERLINKED_SCHEME
    makes its value the default whatever the environment held. *)
Theorem import_module_reads_one_variable
    (environ : gmap string string) (key value : string) :
  (key <> "HYPERLINKED_SCHEME" ->
   import_module (<[key := value]> environ) = import_module environ
   /\ import_module (delete key environ) = import_module environ)
  /\ scheme_default
       (import_module (<["HYPERLINKED_SCHEME" := value]> environ)) = value
  /\ scheme_default
       (import_module (delete "HYPERLINKED_SCHEME" environ)) = "file".
Proof.
  unfold import_module, environ_get. repeat split.
  - now rewrite lookup_insert_ne.
  - now rewrite lookup_delete_ne.
  - cbn. now rewrite lookup_insert_eq.
  - cbn. now rewrite lookup_delete_eq.
Qed.

Lemma import_module_reads_one_variable_witness :
  import_module (<["HOME" := "/home/user"]> ∅) = import_module ∅.
Proof.
  apply (import_module_reads_one_variable ∅ "HOME" "/home/user").
  discriminate.
Defined.

(** ** The wrap helper never fails *)

